(** * Plot: coordinate mapping and tick layout of the graphing component

    A shallow embedding of [src/Plot.tsx] (the [Plot] node of the
    motion-canvas graphing library) and its verification.

    Numbers.  A JavaScript number is modelled by [num]: an exact rational
    ([Fin q], [q : Qc]) or one of the three IEEE special values [PInf],
    [NInf], [NaN].  Arithmetic on finite values is exact (rounding and
    overflow are not modelled) and zero carries no sign (a zero divisor acts
    as [+0], which is what [x - x] evaluates to).  The special values follow
    IEEE 754: [0/0 = NaN], [x/0 = +-Infinity], [Infinity - Infinity = NaN],
    [0 * Infinity = NaN], and every comparison with [NaN] is false.

    Plot properties (the values held by the signals) are finite numbers;
    every value computed from them is a [num], so division by zero and a
    logarithm outside its domain show up as non-finite results. *)

From Stdlib Require Import ZArith QArith Qcanon Qround List String Bool Lia.
From Stdlib Require Import DecimalString Lqa.
Import ListNotations.

Set Implicit Arguments.

(** ** Numbers *)

Module Num.

Inductive num : Type :=
| Fin (q : Qc)
| PInf
| NInf
| NaN.

Definition ofZ (z : Z) : Qc := Q2Qc (inject_Z z).

Definition finite (a : num) : Prop :=
  match a with Fin _ => True | _ => False end.


(** Sign of a finite value, used where IEEE arithmetic picks the sign of an
    infinite result. *)
Definition sgn (q : Qc) : comparison := (q ?= 0)%Qc.

Definition neg (a : num) : num :=
  match a with
  | Fin q => Fin (- q)
  | PInf => NInf
  | NInf => PInf
  | NaN => NaN
  end.

Definition add (a b : num) : num :=
  match a, b with
  | NaN, _ | _, NaN => NaN
  | Fin p, Fin q => Fin (p + q)
  | PInf, NInf | NInf, PInf => NaN
  | PInf, _ | _, PInf => PInf
  | NInf, _ | _, NInf => NInf
  end.

Definition sub (a b : num) : num := add a (neg b).

(** [signed c] is the infinity of sign [c]; a zero sign gives [NaN]
    ([0 * Infinity]). *)
Definition signed (c : comparison) : num :=
  match c with Gt => PInf | Lt => NInf | Eq => NaN end.

Definition mul (a b : num) : num :=
  match a, b with
  | NaN, _ | _, NaN => NaN
  | Fin p, Fin q => Fin (p * q)
  | Fin p, PInf | PInf, Fin p => signed (sgn p)
  | Fin p, NInf | NInf, Fin p => signed (CompOpp (sgn p))
  | PInf, PInf | NInf, NInf => PInf
  | PInf, NInf | NInf, PInf => NInf
  end.

(** Division.  A finite value over zero is an infinity of the sign of the
    dividend, and [0/0] is [NaN]. *)
Definition div (a b : num) : num :=
  match a, b with
  | NaN, _ | _, NaN => NaN
  | Fin p, Fin q =>
      match sgn q with
      | Eq => signed (sgn p)
      | _ => Fin (p / q)
      end
  | Fin _, (PInf | NInf) => Fin 0
  | PInf, Fin q => match sgn q with Lt => NInf | _ => PInf end
  | NInf, Fin q => match sgn q with Lt => PInf | _ => NInf end
  | (PInf | NInf), (PInf | NInf) => NaN
  end.

(** [Math.floor]. *)
Definition floor (a : num) : num :=
  match a with
  | Fin q => Fin (ofZ (Qfloor q))
  | _ => a
  end.

(** [a <= b] as JavaScript evaluates it. *)
Definition leb (a b : num) : bool :=
  match a, b with
  | NaN, _ | _, NaN => false
  | NInf, _ | _, PInf => true
  | Fin p, Fin q => match (p ?= q)%Qc with Gt => false | _ => true end
  | _, _ => false
  end.

(** Identity of two numbers, as a test that evaluates. *)
Definition eqb (a b : num) : bool :=
  match a, b with
  | Fin p, Fin q => Qeq_bool p q
  | PInf, PInf | NInf, NInf | NaN, NaN => true
  | _, _ => false
  end.

End Num.
Export Num.

Declare Scope num_scope.
Delimit Scope num_scope with num.
Bind Scope num_scope with num.
Infix "+" := add : num_scope.
Infix "-" := sub : num_scope.
Infix "*" := mul : num_scope.
Infix "/" := div : num_scope.
Coercion Fin : Qc >-> num.

Arguments Num.add : simpl never.
Arguments Num.sub : simpl never.
Arguments Num.mul : simpl never.
Arguments Num.div : simpl never.


(** An integer literal or loop counter used as a number. *)
Definition int (z : Z) : num := Fin (ofZ z).

(** ** Two-dimensional vectors ([Vector2] of the host library) *)

Module Vector2.

Record t : Type := mk { x : num; y : num }.

Definition add (a b : t) : t := mk (x a + x b) (y a + y b).
Definition sub (a b : t) : t := mk (x a - x b) (y a - y b).
Definition mul (a b : t) : t := mk (x a * x b) (y a * y b).
Definition div (a b : t) : t := mk (x a / x b) (y a / y b).
Definition floored (a : t) : t := mk (floor (x a)) (floor (y a)).

Definition finite (a : t) : Prop := Num.finite (x a) /\ Num.finite (y a).

End Vector2.

(** A vector of finite numbers: the type of the values stored in the
    vector signals of a [Plot]. *)
Record Point : Type := point { px : Qc; py : Qc }.

Definition vec (p : Point) : Vector2.t := Vector2.mk (Fin (px p)) (Fin (py p)).
Coercion vec : Point >-> Vector2.t.

(** [Vector2.one.mul(n)] *)
Definition both (z : Z) : Point := point (ofZ z) (ofZ z).

(** ** The 2D canvas context *)

Module Canvas.

(** Elementary transforms applied to the current transformation matrix. *)
Inductive xform : Type :=
| XTranslate (dx dy : num)
| XRotate (angle : num).

(** The calls and property assignments [drawShape] makes on the context. *)
Inductive call : Type :=
| BeginPath
| MoveTo (px py : num)
| LineTo (px py : num)
| Stroke
| FillText (text : string) (px py : num)
| SetStrokeStyle (style : string)
| SetFillStyle (style : string)
| SetLineWidth (w : num)
| SetFont (font : string)
| SetTextAlign (align : string)
| Save
| Restore
| Translate (dx dy : num)
| Rotate (angle : num).

(** The drawing state that [save] pushes and [restore] pops. *)
Record drawing : Type := mkDrawing {
  strokeStyle : string;
  fillStyle : string;
  lineWidth : num;
  font : string;
  textAlign : string;
  transform : list xform   (* transforms applied so far, oldest first *)
}.

Record t : Type := mk {
  current : drawing;
  stack : list drawing;
  journal : list call      (* every call made so far, oldest first *)
}.

Definition set_current (f : drawing -> drawing) (c : t) : t :=
  mk (f (current c)) (stack c) (journal c).

Definition effect (k : call) (c : t) : t :=
  match k with
  | BeginPath | MoveTo _ _ | LineTo _ _ | Stroke | FillText _ _ _ => c
  | SetStrokeStyle s =>
      set_current (fun d => mkDrawing s (fillStyle d) (lineWidth d) (font d)
                                      (textAlign d) (transform d)) c
  | SetFillStyle s =>
      set_current (fun d => mkDrawing (strokeStyle d) s (lineWidth d) (font d)
                                      (textAlign d) (transform d)) c
  | SetLineWidth w =>
      set_current (fun d => mkDrawing (strokeStyle d) (fillStyle d) w (font d)
                                      (textAlign d) (transform d)) c
  | SetFont f =>
      set_current (fun d => mkDrawing (strokeStyle d) (fillStyle d)
                                      (lineWidth d) f (textAlign d)
                                      (transform d)) c
  | SetTextAlign a =>
      set_current (fun d => mkDrawing (strokeStyle d) (fillStyle d)
                                      (lineWidth d) (font d) a (transform d)) c
  | Save => mk (current c) (current c :: stack c) (journal c)
  | Restore =>
      match stack c with
      | [] => c
      | d :: rest => mk d rest (journal c)
      end
  | Translate dx dy =>
      set_current (fun d => mkDrawing (strokeStyle d) (fillStyle d)
                                      (lineWidth d) (font d) (textAlign d)
                                      (transform d ++ [XTranslate dx dy])) c
  | Rotate a =>
      set_current (fun d => mkDrawing (strokeStyle d) (fillStyle d)
                                      (lineWidth d) (font d) (textAlign d)
                                      (transform d ++ [XRotate a])) c
  end.

(** One call on the context: its effect on the drawing state, recorded in
    the journal. *)
Definition perform (k : call) (c : t) : t :=
  let c' := effect k c in
  mk (current c') (stack c') (journal c' ++ [k]).

Definition perform_all (ks : list call) (c : t) : t :=
  fold_left (fun c k => perform k c) ks c.

(** A fresh context: default styles, identity transform, nothing drawn. *)
Definition blank : t :=
  mk (mkDrawing "#000000" "#000000" (int 1) "10px sans-serif" "start" [])
     [] [].

End Canvas.

Declare Scope vec_scope.
Delimit Scope vec_scope with vec.
Bind Scope vec_scope with Vector2.t.
Infix "+" := Vector2.add : vec_scope.
Infix "-" := Vector2.sub : vec_scope.
Infix "*" := Vector2.mul : vec_scope.
Infix "/" := Vector2.div : vec_scope.
Notation "[ a , b ]" := (Vector2.mk a b) : vec_scope.

(** ** The component *)

(** What [Plot] reads from its base class [Rect] (host code): the size of
    the node, its cardinal points and the font family. *)
Record Rect : Type := {
  size : Point;
  topLeft : Point;
  topRight : Point;
  bottomLeft : Point;
  bottom : Point;
  left : Point;
  fontFamily : string
}.

(** The state of a [Plot]: one field per signal, the two formatters and the
    private [progress] signal. *)
Record Plot : Type := {
  rect :> Rect;
  min : Point;
  max : Point;
  ticks : Point;
  labelSize : Point;
  labelPadding : Point;
  tickLabelSize : Point;
  tickOverflow : Point;
  gridStrokeWidth : Point;
  axisStrokeWidth : Point;
  xAxisColor : string;
  xAxisTextColor : string;
  xAxisLabel : string;
  yAxisColor : string;
  yAxisTextColor : string;
  yAxisLabel : string;
  xLabelFormatter : num -> string;
  yLabelFormatter : num -> string;
  progress : Point
}.

(** [PlotProps]: every property is optional. *)
Record PlotProps : Type := {
  p_min : option Point;
  p_max : option Point;
  p_ticks : option Point;
  p_labelSize : option Point;
  p_labelPadding : option Point;
  p_tickLabelSize : option Point;
  p_tickOverflow : option Point;
  p_gridStrokeWidth : option Qc;
  p_axisStrokeWidth : option Qc;
  p_xAxisColor : option string;
  p_xAxisTextColor : option string;
  p_xAxisLabel : option string;
  p_yAxisColor : option string;
  p_yAxisTextColor : option string;
  p_yAxisLabel : option string;
  p_xLabelFormatter : option (num -> string);
  p_yLabelFormatter : option (num -> string)
}.

Inductive error : Type := TypeError.

Inductive result (A : Type) : Type :=
| Ok (a : A)
| Throw (e : error).
Arguments Ok {A} a.
Arguments Throw {A} e.

(** The host: the JavaScript built-ins and the framework functions the
    component calls.  They are parameters of the development.
    - [Math_log10_pos q] is the value of [Math.log10] at a positive finite
      [q] (an implementation-approximated, finite number);
    - [Number_toString] is the conversion used by template literals;
    - [Number_toFixed] is [Number.prototype.toFixed];
    - [resolveCanvasStyle] turns a style into what is assigned to the
      context (the context argument of the original is a factory handle);
    - [Rect_new] is the constructor of the base class. *)
Record Host : Type := {
  Math_log10_pos : Qc -> Qc;
  Number_toString : num -> string;
  Number_toFixed : num -> Z -> string;
  resolveCanvasStyle : string -> string;
  Rect_new : option PlotProps -> result Rect
}.

(** [Math.PI], the double nearest to pi. *)
Definition Math_PI : Qc := Q2Qc (884279719003555 # 281474976710656).

(** *** The drawing monad: the component and the context it draws on *)

Record World : Type := { plot : Plot; context : Canvas.t }.

(** A computation reads the component, calls the context, and may fail to
    return ([None]: the loop fuel ran out). *)
Definition M (A : Type) : Type := World -> option (A * World).

Definition ret {A} (a : A) : M A := fun w => Some (a, w).

Definition bind {A B} (m : M A) (f : A -> M B) : M B :=
  fun w => match m w with
           | Some (a, w') => f a w'
           | None => None
           end.

Definition diverge {A} : M A := fun _ => None.

(** [this]: reading the component. *)
Definition self : M Plot := fun w => Some (plot w, w).

(** One call on the context. *)
Definition ctx (k : Canvas.call) : M unit :=
  fun w => Some (tt, {| plot := plot w;
                        context := Canvas.perform k (context w) |}).

Declare Scope draw_scope.
Delimit Scope draw_scope with draw.
Bind Scope draw_scope with M.
Notation "x <- m ;; k" := (bind m (fun x => k))
  (at level 61, m at next level, right associativity) : draw_scope.
Notation "m ;; k" := (bind m (fun _ => k))
  (at level 61, right associativity) : draw_scope.

(** [for (let i = start; test(i); i++) body(i)] *)
Fixpoint for_loop (fuel : nat) (i : Z) (test : Z -> M bool)
         (body : Z -> M unit) : M unit :=
  match fuel with
  | O => diverge
  | S fuel' =>
      (b <- test i ;;
       if b : bool then body i ;; for_loop fuel' (i + 1) test body
       else ret tt)%draw
  end.

Section WithHost.

Variable host : Host.

(** [Math.log10] on every number. *)
Definition Math_log10 (a : num) : num :=
  match a with
  | Fin q =>
      match sgn q with
      | Gt => Fin (Math_log10_pos host q)
      | Eq => NInf
      | Lt => NaN
      end
  | PInf => PInf
  | NInf | NaN => NaN
  end.

(** *** Computed signals and the coordinate mapping *)

Definition edgePadding (this : Plot) : Vector2.t :=
  (labelSize this
   + labelPadding this
   + tickLabelSize this * [Math_log10 (Vector2.y (max this)) + int 1, int 2]
   + tickOverflow this
   + axisStrokeWidth this)%vec.

Definition gridSize (this : Plot) : Vector2.t :=
  (size this - edgePadding this)%vec.

Definition mapToX (this : Plot) (value : num) : num :=
  (Vector2.x (min this)
   + value * (Vector2.x (max this) - Vector2.x (min this)))%num.

Definition mapToY (this : Plot) (value : num) : num :=
  (Vector2.y (min this)
   + value * (Vector2.y (max this) - Vector2.y (min this)))%num.

Definition toRelativeGridSize (this : Plot) (p : Vector2.t) : Vector2.t :=
  ((p - min this) / (max this - min this))%vec.

Definition getPointFromPlotSpace (this : Plot) (p : Vector2.t) : Vector2.t :=
  let bottomLeft := (bottomLeft this + edgePadding this * [int 1, int (-1)])%vec in
  let delta := (topRight this - bottomLeft)%vec in
  (bottomLeft + toRelativeGridSize this p * delta)%vec.

(** *** drawShape *)

(** The test of both tick loops, [i <= this.ticks().floored.<axis>]. *)
Definition tick_test (axis : Vector2.t -> num) (i : Z) : M bool :=
  (this <- self ;;
   ret (leb (int i) (axis (Vector2.floored (ticks this)))))%draw.

(** Body of the first loop: one vertical gridline and its tick label. *)
Definition xTick (tl : Vector2.t) (i : Z) : M unit :=
  (this <- self ;;
   let startPosition :=
     (tl + gridSize this * [int i / Vector2.x (ticks this), int 1])%vec in
   ctx Canvas.BeginPath ;;
   ctx (Canvas.MoveTo
          (Vector2.x startPosition)
          (Vector2.y startPosition
           + Vector2.x (tickOverflow this)
           + Vector2.x (axisStrokeWidth this) / int 2
           + Vector2.x (axisStrokeWidth this) / int 2)%num) ;;
   ctx (Canvas.LineTo (Vector2.x startPosition) (Vector2.y tl)) ;;
   ctx (Canvas.SetStrokeStyle (resolveCanvasStyle host (xAxisColor this))) ;;
   ctx (Canvas.SetLineWidth (Vector2.x (gridStrokeWidth this))) ;;
   ctx Canvas.Stroke ;;
   ctx (Canvas.SetFillStyle (resolveCanvasStyle host (xAxisTextColor this))) ;;
   ctx (Canvas.SetFont
          (Number_toString host (Vector2.y (tickLabelSize this))
           ++ "px sans-serif")) ;;
   ctx (Canvas.SetTextAlign "right") ;;
   ctx (Canvas.FillText
          (xLabelFormatter this
             (mapToX this (int i / Vector2.x (ticks this))%num))
          (Vector2.x startPosition)
          (Vector2.y startPosition
           + Vector2.x (tickLabelSize this)
           + Vector2.x (tickOverflow this)
           + Vector2.x (axisStrokeWidth this))%num))%draw.

(** Body of the second loop: one horizontal gridline and its tick label. *)
Definition yTick (tl : Vector2.t) (i : Z) : M unit :=
  (this <- self ;;
   let startPosition :=
     (tl + gridSize this
           * [int 1, (int 1 - int i / Vector2.y (ticks this))%num])%vec in
   ctx Canvas.BeginPath ;;
   ctx (Canvas.MoveTo (Vector2.x startPosition) (Vector2.y startPosition)) ;;
   ctx (Canvas.LineTo
          (Vector2.x tl
           - Vector2.y (tickOverflow this)
           - Vector2.y (axisStrokeWidth this))%num
          (Vector2.y startPosition)) ;;
   ctx (Canvas.SetStrokeStyle (resolveCanvasStyle host (yAxisColor this))) ;;
   ctx (Canvas.SetLineWidth (Vector2.y (gridStrokeWidth this))) ;;
   ctx Canvas.Stroke ;;
   ctx (Canvas.SetFillStyle (resolveCanvasStyle host (yAxisTextColor this))) ;;
   ctx (Canvas.SetFont
          (Number_toString host (Vector2.y (tickLabelSize this))
           ++ "px " ++ fontFamily this)) ;;
   ctx (Canvas.SetTextAlign "right") ;;
   ctx (Canvas.FillText
          (yLabelFormatter this
             (mapToY this (int i / Vector2.y (ticks this))%num))
          (Vector2.x tl
           - Vector2.y (tickLabelSize this)
           - Vector2.y (tickOverflow this)
           - Vector2.y (axisStrokeWidth this))%num
          (Vector2.y startPosition
           + Vector2.y (tickLabelSize this) / int 2)%num))%draw.

(** The two axis lines. *)
Definition drawAxes : M unit :=
  (this <- self ;;
   ctx Canvas.BeginPath ;;
   let yAxisStartPoint :=
     getPointFromPlotSpace this [int 0, Vector2.y (min this)]%vec in
   let yAxisEndPoint :=
     getPointFromPlotSpace this [int 0, Vector2.y (max this)]%vec in
   ctx (Canvas.MoveTo
          (Vector2.x yAxisStartPoint - Vector2.y (gridStrokeWidth this) / int 2)%num
          (Vector2.y yAxisStartPoint - Vector2.y (gridStrokeWidth this) / int 2)%num) ;;
   ctx (Canvas.LineTo
          (Vector2.x yAxisEndPoint - Vector2.y (gridStrokeWidth this) / int 2)%num
          (Vector2.y yAxisEndPoint + Vector2.y (gridStrokeWidth this) / int 2)%num) ;;
   ctx (Canvas.SetStrokeStyle (resolveCanvasStyle host (xAxisColor this))) ;;
   ctx (Canvas.SetLineWidth (Vector2.x (axisStrokeWidth this))) ;;
   ctx Canvas.Stroke ;;
   ctx Canvas.BeginPath ;;
   let xAxisStartPoint :=
     getPointFromPlotSpace this [Vector2.x (min this), int 0]%vec in
   let xAxisEndPoint :=
     getPointFromPlotSpace this [Vector2.x (max this), int 0]%vec in
   ctx (Canvas.MoveTo
          (Vector2.x xAxisStartPoint - Vector2.x (gridStrokeWidth this) / int 2)%num
          (Vector2.y xAxisStartPoint + Vector2.x (gridStrokeWidth this) / int 2)%num) ;;
   ctx (Canvas.LineTo
          (Vector2.x xAxisEndPoint + Vector2.x (gridStrokeWidth this) / int 2)%num
          (Vector2.y xAxisEndPoint + Vector2.x (gridStrokeWidth this) / int 2)%num) ;;
   ctx (Canvas.SetStrokeStyle (resolveCanvasStyle host (yAxisColor this))) ;;
   ctx (Canvas.SetLineWidth (Vector2.y (axisStrokeWidth this))) ;;
   ctx Canvas.Stroke)%draw.

(** The x axis label. *)
Definition drawXAxisLabel : M unit :=
  (this <- self ;;
   ctx (Canvas.SetFillStyle (resolveCanvasStyle host (xAxisTextColor this))) ;;
   ctx (Canvas.SetFont
          (Number_toString host (Vector2.y (labelSize this))
           ++ "px " ++ fontFamily this)) ;;
   ctx (Canvas.SetTextAlign "center") ;;
   ctx (Canvas.FillText
          (xAxisLabel this)
          (Vector2.x (bottom this) + Vector2.x (edgePadding this) / int 2)%num
          (Vector2.y (bottom this) - Vector2.x (labelPadding this) / int 2)%num))%draw.

(** The rotated y axis label, between [save] and [restore]. *)
Definition drawYAxisLabel : M unit :=
  (this <- self ;;
   ctx (Canvas.SetFillStyle (resolveCanvasStyle host (yAxisTextColor this))) ;;
   ctx (Canvas.SetFont
          (Number_toString host (Vector2.y (labelSize this))
           ++ "px " ++ fontFamily this)) ;;
   ctx (Canvas.SetTextAlign "center") ;;
   ctx Canvas.Save ;;
   ctx (Canvas.Translate
          (Vector2.x (left this)
           + Vector2.y (labelPadding this) / int 2
           + Vector2.y (labelSize this))%num
          (Vector2.y (left this) - Vector2.y (edgePadding this) / int 2)%num) ;;
   ctx (Canvas.Rotate (neg (Fin Math_PI) / int 2)%num) ;;
   ctx (Canvas.FillText (yAxisLabel this) (int 0) (int 0)) ;;
   ctx Canvas.Restore)%draw.

Definition drawShape (fuel : nat) : M unit :=
  (this <- self ;;
   let tl := (topLeft this + edgePadding this * [int 1, int 0])%vec in
   for_loop fuel 0 (tick_test Vector2.x) (xTick tl) ;;
   for_loop fuel 0 (tick_test Vector2.y) (yTick tl) ;;
   drawAxes ;;
   drawXAxisLabel ;;
   drawYAxisLabel)%draw.

(** *** The constructor *)

(** A signal takes the value given in the props, or the one of its
    [@initial] decorator. *)
Definition initial {A} (default : A) (given : option A) : A :=
  match given with
  | Some v => v
  | None => default
  end.

(** The object once [super(props)] has returned [super] and the two
    formatter fields are assigned. *)
Definition initialized (super : Rect) (props : PlotProps) : Plot :=
  {| rect := super;
     min := initial (both 0) (p_min props);
     max := initial (both 100) (p_max props);
     ticks := initial (both 10) (p_ticks props);
     labelSize := initial (both 30) (p_labelSize props);
     labelPadding := initial (both 10) (p_labelPadding props);
     tickLabelSize := initial (both 10) (p_tickLabelSize props);
     tickOverflow := initial (both 5) (p_tickOverflow props);
     gridStrokeWidth :=
       initial (both 1)
         (option_map (fun w => point w w) (p_gridStrokeWidth props));
     axisStrokeWidth :=
       initial (both 2)
         (option_map (fun w => point w w) (p_axisStrokeWidth props));
     xAxisColor := initial "white"%string (p_xAxisColor props);
     xAxisTextColor := initial "white"%string (p_xAxisTextColor props);
     xAxisLabel := initial ""%string (p_xAxisLabel props);
     yAxisColor := initial "white"%string (p_yAxisColor props);
     yAxisTextColor := initial "white"%string (p_yAxisTextColor props);
     yAxisLabel := initial ""%string (p_yAxisLabel props);
     xLabelFormatter :=
       match p_xLabelFormatter props with
       | Some f => f
       | None => fun x => Number_toFixed host x 0
       end;
     yLabelFormatter :=
       match p_yLabelFormatter props with
       | Some f => f
       | None => fun y => Number_toFixed host y 0
       end;
     progress := both 0 |}.

Definition constructor (props : option PlotProps) : result Plot :=
  match Rect_new host props with
  | Throw e => Throw e
  | Ok super =>
      match props with
      | None => Throw TypeError      (* props.xLabelFormatter on undefined *)
      | Some props => Ok (initialized super props)
      end
  end.

End WithHost.

(** ** Notions used in the statements *)

(** [zseq i n] is [i; i+1; ...; i+n-1], the values a loop counter takes. *)
Fixpoint zseq (i : Z) (n : nat) : list Z :=
  match n with
  | O => []
  | S n' => i :: zseq (i + 1) n'
  end.

(** Number of iterations of [for (i = 0; i <= floor(t); i++)]. *)
Definition tick_count (t : Qc) : nat := Z.to_nat (Qfloor t + 1).

(** Fuel that lets both tick loops of [drawShape] run to their end. *)
Definition enough_fuel (this : Plot) (fuel : nat) : Prop :=
  (tick_count (px (ticks this)) < fuel)%nat
  /\ (tick_count (py (ticks this)) < fuel)%nat.

(** The calls a drawing computation makes, run on a fresh context. *)
Definition calls (m : M unit) (this : Plot) : list Canvas.call :=
  match m {| plot := this; context := Canvas.blank |} with
  | Some (_, w) => Canvas.journal (context w)
  | None => []
  end.

(** [emits m this ks]: from any context, [m] returns, leaves the component
    as it is, and has made exactly the calls [ks] on the context. *)
Definition emits (m : M unit) (this : Plot) (ks : list Canvas.call) : Prop :=
  forall c, m {| plot := this; context := c |}
            = Some (tt, {| plot := this;
                           context := Canvas.perform_all ks c |}).

(** [test] evaluates to [b] on [this] and changes nothing. *)
Definition evaluates (test : M bool) (this : Plot) (b : bool) : Prop :=
  forall c, test {| plot := this; context := c |}
            = Some (b, {| plot := this; context := c |}).

(** [ks] leaves the transform and the stack of saved states as they were. *)
Definition balanced (ks : list Canvas.call) : Prop :=
  forall c,
    Canvas.transform (Canvas.current (Canvas.perform_all ks c))
    = Canvas.transform (Canvas.current c)
    /\ Canvas.stack (Canvas.perform_all ks c) = Canvas.stack c.

(** Readings of a journal. *)
Definition is_stroke (k : Canvas.call) : bool :=
  match k with Canvas.Stroke => true | _ => false end.

Definition strokes (ks : list Canvas.call) : nat :=
  List.length (filter is_stroke ks).

Fixpoint texts (ks : list Canvas.call) : list string :=
  match ks with
  | [] => []
  | Canvas.FillText s _ _ :: ks' => s :: texts ks'
  | _ :: ks' => texts ks'
  end.

Fixpoint moves (ks : list Canvas.call) : list (num * num) :=
  match ks with
  | [] => []
  | Canvas.MoveTo a b :: ks' => (a, b) :: moves ks'
  | _ :: ks' => moves ks'
  end.

(** Every point handed to [moveTo], [lineTo] and [fillText]. *)
Fixpoint positions (ks : list Canvas.call) : list (num * num) :=
  match ks with
  | [] => []
  | (Canvas.MoveTo a b | Canvas.LineTo a b | Canvas.FillText _ a b) :: ks' =>
      (a, b) :: positions ks'
  | _ :: ks' => positions ks'
  end.


(** Two components with the same declarative properties and formatters
    (they may differ in the private [progress] signal). *)
Definition same_properties (a b : Plot) : Prop :=
  rect a = rect b
  /\ min a = min b /\ max a = max b /\ ticks a = ticks b
  /\ labelSize a = labelSize b /\ labelPadding a = labelPadding b
  /\ tickLabelSize a = tickLabelSize b /\ tickOverflow a = tickOverflow b
  /\ gridStrokeWidth a = gridStrokeWidth b
  /\ axisStrokeWidth a = axisStrokeWidth b
  /\ xAxisColor a = xAxisColor b /\ xAxisTextColor a = xAxisTextColor b
  /\ xAxisLabel a = xAxisLabel b
  /\ yAxisColor a = yAxisColor b /\ yAxisTextColor a = yAxisTextColor b
  /\ yAxisLabel a = yAxisLabel b
  /\ xLabelFormatter a = xLabelFormatter b
  /\ yLabelFormatter a = yLabelFormatter b.

Section Derived.

Variable host : Host.

(** The inset corner [bottomLeft + edgePadding * (1, -1)]. *)
Definition insetBottomLeft (this : Plot) : Vector2.t :=
  (bottomLeft this + edgePadding host this * [int 1, int (-1)])%vec.

(** [tl] of [drawShape]. *)
Definition insetTopLeft (this : Plot) : Vector2.t :=
  (topLeft this + edgePadding host this * [int 1, int 0])%vec.

(** The edge inset in the words of the specification, component by
    component. *)
Definition edgePadding_spec (this : Plot) : Vector2.t :=
  [ (Fin (px (labelSize this)) + Fin (px (labelPadding this))
     + Fin (px (tickLabelSize this))
       * (Math_log10 host (Fin (py (max this))) + int 1)
     + Fin (px (tickOverflow this)) + Fin (px (axisStrokeWidth this)))%num,
    (Fin (py (labelSize this)) + Fin (py (labelPadding this))
     + Fin (py (tickLabelSize this)) * int 2
     + Fin (py (tickOverflow this)) + Fin (py (axisStrokeWidth this)))%num
  ]%vec.




(** The calls of the iterations of the two tick loops. *)
Definition xTick_calls (this : Plot) (i : Z) : list Canvas.call :=
  calls (xTick host (insetTopLeft this) i) this.

Definition yTick_calls (this : Plot) (i : Z) : list Canvas.call :=
  calls (yTick host (insetTopLeft this) i) this.

Definition vertical_calls (this : Plot) : list Canvas.call :=
  flat_map (xTick_calls this) (zseq 0 (tick_count (px (ticks this)))).

Definition horizontal_calls (this : Plot) : list Canvas.call :=
  flat_map (yTick_calls this) (zseq 0 (tick_count (py (ticks this)))).

(** Everything [drawShape] calls, in order. *)
Definition drawShape_calls (this : Plot) : list Canvas.call :=
  vertical_calls this ++ horizontal_calls this
  ++ calls (drawAxes host) this
  ++ calls (drawXAxisLabel host) this
  ++ calls (drawYAxisLabel host) this.

End Derived.

(** ** A concrete host and concrete plots, to run the model *)

Module Sample.

(** Decimal digits of an integer. *)
Definition digits (z : Z) : string := NilZero.string_of_int (Z.to_int z).

Fixpoint ilog10 (fuel : nat) (z : Z) : Z :=
  match fuel with
  | O => 0
  | S fuel' => if (z <? 10)%Z then 0%Z else (1 + ilog10 fuel' (z / 10))%Z
  end.

(** The integer part of the decimal logarithm; exact at powers of ten. *)
Definition log10 (q : Qc) : Qc :=
  match (q ?= 1)%Qc with
  | Lt => let z := Qceiling (/ q) in
          (- ofZ (ilog10 (S (Z.to_nat (Z.log2 z))) z))%Qc
  | _ => let z := Qfloor q in ofZ (ilog10 (S (Z.to_nat (Z.log2 z))) z)
  end.

(** [toFixed(0)]: the nearest integer, ties away from zero, in decimal.
    The sample ignores the requested number of fraction digits. *)
Definition toFixed (a : num) (fractionDigits : Z) : string :=
  match a with
  | Fin q =>
      match sgn q with
      | Lt => "-" ++ digits (Qfloor (- q + Q2Qc (1 # 2))%Qc)
      | _ => digits (Qfloor (q + Q2Qc (1 # 2))%Qc)
      end
  | PInf => "Infinity"
  | NInf => "-Infinity"
  | NaN => "NaN"
  end.

(** Number to string; exact on integers, rounded otherwise. *)
Definition toString (a : num) : string := toFixed a 0.

(** A 400 by 300 rectangle centred on the origin. *)
Definition rect0 : Rect :=
  {| size := point (ofZ 400) (ofZ 300);
     topLeft := point (ofZ (-200)) (ofZ (-150));
     topRight := point (ofZ 200) (ofZ (-150));
     bottomLeft := point (ofZ (-200)) (ofZ 150);
     bottom := point (ofZ 0) (ofZ 150);
     left := point (ofZ (-200)) (ofZ 0);
     fontFamily := "Roboto" |}.

Definition host : Host :=
  {| Math_log10_pos := log10;
     Number_toString := toString;
     Number_toFixed := toFixed;
     resolveCanvasStyle := fun style => style;
     Rect_new := fun props =>
                   match props with
                   | Some _ => Ok rect0
                   | None => Throw TypeError
                   end |}.

(** Props with every property omitted. *)
Definition no_props : PlotProps :=
  {| p_min := None; p_max := None; p_ticks := None; p_labelSize := None;
     p_labelPadding := None; p_tickLabelSize := None; p_tickOverflow := None;
     p_gridStrokeWidth := None; p_axisStrokeWidth := None;
     p_xAxisColor := None; p_xAxisTextColor := None; p_xAxisLabel := None;
     p_yAxisColor := None; p_yAxisTextColor := None; p_yAxisLabel := None;
     p_xLabelFormatter := None; p_yLabelFormatter := None |}.

(** The plot built from [no_props]: every signal at its initial value. *)
Definition plot0 : Plot := initialized host rect0 no_props.

(** A plot with the given data range and tick counts. *)
Definition plot_with (lo hi tk : Point) : Plot :=
  initialized host rect0
    {| p_min := Some lo; p_max := Some hi; p_ticks := Some tk;
       p_labelSize := None; p_labelPadding := None; p_tickLabelSize := None;
       p_tickOverflow := None; p_gridStrokeWidth := None;
       p_axisStrokeWidth := None; p_xAxisColor := None;
       p_xAxisTextColor := None; p_xAxisLabel := None; p_yAxisColor := None;
       p_yAxisTextColor := None; p_yAxisLabel := None;
       p_xLabelFormatter := None; p_yLabelFormatter := None |}.

(** Integer points. *)
Definition pt (a b : Z) : Point := point (ofZ a) (ofZ b).


(** A range with [max.y = 0]. *)
Definition nonpos_y : Plot := plot_with (pt 0 (-100)) (pt 100 0) (pt 10 10).

(** The same properties, another value of the private [progress] signal. *)
Definition with_progress (this : Plot) (v : Point) : Plot :=
  {| rect := rect this; min := min this; max := max this;
     ticks := ticks this; labelSize := labelSize this;
     labelPadding := labelPadding this; tickLabelSize := tickLabelSize this;
     tickOverflow := tickOverflow this;
     gridStrokeWidth := gridStrokeWidth this;
     axisStrokeWidth := axisStrokeWidth this; xAxisColor := xAxisColor this;
     xAxisTextColor := xAxisTextColor this; xAxisLabel := xAxisLabel this;
     yAxisColor := yAxisColor this; yAxisTextColor := yAxisTextColor this;
     yAxisLabel := yAxisLabel this; xLabelFormatter := xLabelFormatter this;
     yLabelFormatter := yLabelFormatter this; progress := v |}.

(** A node whose cardinal points are not axis-aligned (a rotated node seen
    from its parent). *)
Definition skewed : Plot :=
  initialized host
    {| size := pt 400 300; topLeft := pt (-200) (-150);
       topRight := pt 200 (-150); bottomLeft := pt (-180) 150;
       bottom := pt 0 150; left := pt (-200) 0; fontFamily := "Roboto" |}
    no_props.

End Sample.

(** ** Notions used in the further properties *)





(** Two components that agree on everything that is a length or a
    position; colours, label texts, formatters and the font family are
    free. *)
Definition same_geometry (a b : Plot) : Prop :=
  size a = size b /\ topLeft a = topLeft b /\ topRight a = topRight b
  /\ bottomLeft a = bottomLeft b /\ bottom a = bottom b /\ left a = left b
  /\ min a = min b /\ max a = max b /\ ticks a = ticks b
  /\ labelSize a = labelSize b /\ labelPadding a = labelPadding b
  /\ tickLabelSize a = tickLabelSize b /\ tickOverflow a = tickOverflow b
  /\ gridStrokeWidth a = gridStrokeWidth b
  /\ axisStrokeWidth a = axisStrokeWidth b.

(** Two components that differ at most in the font family. *)
Definition same_but_font (a b : Plot) : Prop :=
  same_geometry a b
  /\ xAxisColor a = xAxisColor b /\ xAxisTextColor a = xAxisTextColor b
  /\ xAxisLabel a = xAxisLabel b
  /\ yAxisColor a = yAxisColor b /\ yAxisTextColor a = yAxisTextColor b
  /\ yAxisLabel a = yAxisLabel b
  /\ xLabelFormatter a = xLabelFormatter b
  /\ yLabelFormatter a = yLabelFormatter b.

(** The fonts set by a sequence of calls. *)
Fixpoint fonts (ks : list Canvas.call) : list string :=
  match ks with
  | [] => []
  | Canvas.SetFont f :: ks' => f :: fonts ks'
  | _ :: ks' => fonts ks'
  end.

(** Every point and offset handed to the context, in order. *)
Fixpoint coordinates (ks : list Canvas.call) : list (num * num) :=
  match ks with
  | [] => []
  | (Canvas.MoveTo a b | Canvas.LineTo a b | Canvas.FillText _ a b
     | Canvas.Translate a b) :: ks' => (a, b) :: coordinates ks'
  | _ :: ks' => coordinates ks'
  end.

Section Further.

Variable host : Host.

(** What [drawShape] calls after the two tick loops. *)
Definition closing_calls (this : Plot) : list Canvas.call :=
  calls (drawAxes host) this
  ++ calls (drawXAxisLabel host) this
  ++ calls (drawYAxisLabel host) this.

(** The drawing state [drawShape] leaves behind on a context whose
    transform was [t]. *)
Definition final_drawing (this : Plot) (t : list Canvas.xform)
  : Canvas.drawing :=
  Canvas.mkDrawing
    (resolveCanvasStyle host (yAxisColor this))
    (resolveCanvasStyle host (yAxisTextColor this))
    (Fin (py (axisStrokeWidth this)))
    (Number_toString host (Fin (py (labelSize this)))
     ++ "px " ++ fontFamily this)
    "center"
    t.

End Further.

(** More concrete plots. *)
Module Cases.

Import Sample.

(** The props of [plot_with], with the given formatters. *)
Definition formatted (fx fy : option (num -> string)) : PlotProps :=
  {| p_min := None; p_max := None; p_ticks := None; p_labelSize := None;
     p_labelPadding := None; p_tickLabelSize := None; p_tickOverflow := None;
     p_gridStrokeWidth := None; p_axisStrokeWidth := None;
     p_xAxisColor := None; p_xAxisTextColor := None; p_xAxisLabel := None;
     p_yAxisColor := None; p_yAxisTextColor := None; p_yAxisLabel := None;
     p_xLabelFormatter := fx; p_yLabelFormatter := fy |}.

(** Negative tick counts on both axes. *)
Definition negative_ticks : Plot := plot_with (pt 0 0) (pt 100 100) (pt (-1) (-3)).

(** No ticks on the x axis. *)
Definition zero_ticks : Plot := plot_with (pt 0 0) (pt 100 100) (pt 0 10).


(** [plot0] with other colours, texts and font. *)
Definition restyled : Plot :=
  {| rect := {| size := size plot0; topLeft := topLeft plot0;
                topRight := topRight plot0; bottomLeft := bottomLeft plot0;
                bottom := bottom plot0; left := left plot0;
                fontFamily := "Fira Code" |};
     min := min plot0; max := max plot0; ticks := ticks plot0;
     labelSize := labelSize plot0; labelPadding := labelPadding plot0;
     tickLabelSize := tickLabelSize plot0; tickOverflow := tickOverflow plot0;
     gridStrokeWidth := gridStrokeWidth plot0;
     axisStrokeWidth := axisStrokeWidth plot0; xAxisColor := "red";
     xAxisTextColor := "green"; xAxisLabel := "Time"; yAxisColor := "blue";
     yAxisTextColor := "grey"; yAxisLabel := "Beans";
     xLabelFormatter := fun _ => "x"%string;
     yLabelFormatter := fun _ => "y"%string;
     progress := progress plot0 |}.

End Cases.

(** * Verification *)

(** ** Facts about numbers *)

Section NumFacts.

Local Open Scope Qc_scope.






Lemma sgn_Lt (q : Qc) : sgn q = Lt <-> q < 0.
Proof. unfold sgn. symmetry. apply Qclt_alt. Qed.




Lemma sub_fin (p q : Qc) : (Fin p - Fin q)%num = Fin (p - q).
Proof. reflexivity. Qed.



(** Division by zero never gives a finite number. *)
Lemma div_zero_not_finite (a : num) : ~ finite (a / Fin 0)%num.
Proof.
  destruct a as [p | | |]; unfold Num.div; simpl; try tauto.
  destruct (sgn p); simpl; tauto.
Qed.

(** A non-finite operand makes sums, differences and products non-finite. *)
Lemma add_not_finite_l (a b : num) : ~ finite a -> ~ finite (a + b)%num.
Proof. destruct a, b; simpl; tauto. Qed.

Lemma add_not_finite_r (a b : num) : ~ finite b -> ~ finite (a + b)%num.
Proof. destruct a, b; simpl; tauto. Qed.

Lemma neg_not_finite (a : num) : ~ finite a -> ~ finite (neg a).
Proof. destruct a; simpl; tauto. Qed.

Lemma sub_not_finite_l (a b : num) : ~ finite a -> ~ finite (a - b)%num.
Proof. intros H. now apply add_not_finite_l. Qed.

Lemma sub_not_finite_r (a b : num) : ~ finite b -> ~ finite (a - b)%num.
Proof. intros H. now apply add_not_finite_r, neg_not_finite. Qed.

Lemma mul_not_finite_l (a b : num) : ~ finite a -> ~ finite (a * b)%num.
Proof.
  destruct a as [p | | |], b as [q | | |]; unfold Num.mul; simpl; try tauto;
    destruct (sgn q); simpl; tauto.
Qed.

Lemma mul_not_finite_r (a b : num) : ~ finite b -> ~ finite (a * b)%num.
Proof.
  destruct b as [p | | |], a as [q | | |]; unfold Num.mul; simpl; try tauto;
    destruct (sgn q); simpl; tauto.
Qed.

Lemma div_not_finite_l (a b : num) : ~ finite a -> ~ finite (a / b)%num.
Proof.
  destruct a as [p | | |], b as [q | | |]; unfold Num.div; simpl; try tauto;
    destruct (sgn q); simpl; tauto.
Qed.

Lemma eqb_eq (a b : num) : eqb a b = true -> a = b.
Proof.
  destruct a as [p | | |], b as [q | | |]; simpl; try discriminate;
    try reflexivity.
  intros H. f_equal. apply Qc_is_canon, Qeq_bool_iff, H.
Qed.

Lemma finite_Fin (a : num) : finite a -> exists q, a = Fin q.
Proof. destruct a; simpl; try tauto. intros _. now exists q. Qed.

End NumFacts.

Create HintDb nonfinite.

#[local] Hint Resolve add_not_finite_l add_not_finite_r sub_not_finite_l
  sub_not_finite_r mul_not_finite_l mul_not_finite_r div_zero_not_finite
  div_not_finite_l
  : nonfinite.

Ltac unfold_vec :=
  unfold Vector2.add, Vector2.sub, Vector2.mul, Vector2.div, vec;
  cbn [Vector2.x Vector2.y px py].


(** Closed comparisons of rationals, by evaluation. *)
Ltac qc_neq :=
  let E := fresh "E" in
  intro E; apply Qceq_alt in E; vm_compute in E; discriminate E.
Ltac qc_lt := apply Qclt_alt; vm_compute; reflexivity.
Ltac qc_eq := apply Qc_is_canon; vm_compute; reflexivity.
Ltac num_eq := apply eqb_eq; vm_compute; reflexivity.

(** ** The edge inset and the coordinate mapping *)

Section Mapping.

Variable host : Host.

Local Open Scope Qc_scope.





(** C5.  The edge inset is [labelSize + labelPadding + tickLabelSize *
    (log10(max.y) + 1, 2) + tickOverflow + axisStrokeWidth], component by
    component, and the grid area is [size - edgePadding]. *)
Theorem edgePadding_gridSize_formula (this : Plot) :
  edgePadding host this = edgePadding_spec host this
  /\ gridSize host this
     = [ (Fin (px (size this)) - Vector2.x (edgePadding_spec host this))%num,
         (Fin (py (size this)) - Vector2.y (edgePadding_spec host this))%num
       ]%vec.
Proof. split; reflexivity. Qed.








End Mapping.

(** ** The drawing monad *)

Section Emits.

Variable this : Plot.

Lemma perform_all_app (ks1 ks2 : list Canvas.call) (c : Canvas.t) :
  Canvas.perform_all (ks1 ++ ks2) c
  = Canvas.perform_all ks2 (Canvas.perform_all ks1 c).
Proof. unfold Canvas.perform_all. apply fold_left_app. Qed.

Lemma journal_effect (k : Canvas.call) (c : Canvas.t) :
  Canvas.journal (Canvas.effect k c) = Canvas.journal c.
Proof. destruct k; try reflexivity. simpl. now destruct (Canvas.stack c). Qed.

Lemma journal_perform_all (ks : list Canvas.call) (c : Canvas.t) :
  Canvas.journal (Canvas.perform_all ks c) = (Canvas.journal c ++ ks)%list.
Proof.
  revert c. induction ks as [| k ks IH]; intros c.
  - symmetry. apply app_nil_r.
  - change (Canvas.perform_all (k :: ks) c)
      with (Canvas.perform_all ks (Canvas.perform k c)).
    rewrite IH. unfold Canvas.perform. cbn [Canvas.journal].
    rewrite journal_effect, <- app_assoc. reflexivity.
Qed.

Lemma emits_calls (m : M unit) (ks : list Canvas.call) :
  emits m this ks -> calls m this = ks.
Proof.
  intros H. unfold calls. rewrite H. simpl.
  now rewrite journal_perform_all.
Qed.

Lemma emits_ret : emits (ret tt) this [].
Proof. intro c. reflexivity. Qed.

Lemma emits_ctx (k : Canvas.call) : emits (ctx k) this [k].
Proof. intro c. reflexivity. Qed.

Lemma emits_bind (m1 m2 : M unit) (ks1 ks2 : list Canvas.call) :
  emits m1 this ks1 -> emits m2 this ks2 ->
  emits (m1 ;; m2)%draw this (ks1 ++ ks2).
Proof.
  intros H1 H2 c. unfold bind. rewrite H1, H2, perform_all_app. reflexivity.
Qed.

Lemma emits_self (f : Plot -> M unit) (ks : list Canvas.call) :
  emits (f this) this ks -> emits (x <- self ;; f x)%draw this ks.
Proof. intros H c. unfold bind, self. simpl. apply H. Qed.

(** A loop whose test holds for the next [n] counter values and fails
    after them makes the calls of those [n] iterations, given more than [n]
    units of fuel. *)
Lemma emits_for_loop (test : Z -> M bool) (body : Z -> M unit)
      (B : Z -> list Canvas.call) :
  (forall j, emits (body j) this (B j)) ->
  forall (n : nat) (i : Z) (fuel : nat),
    (n < fuel)%nat ->
    (forall j, (i <= j < i + Z.of_nat n)%Z -> evaluates (test j) this true) ->
    evaluates (test (i + Z.of_nat n)%Z) this false ->
    emits (for_loop fuel i test body) this (flat_map B (zseq i n)).
Proof.
  intros HB. induction n as [| n IH]; intros i fuel Hfuel Htrue Hfalse c.
  - destruct fuel as [| fuel]; [lia |]. simpl. unfold bind.
    replace (i + Z.of_nat 0)%Z with i in Hfalse by lia.
    rewrite Hfalse. reflexivity.
  - destruct fuel as [| fuel]; [lia |]. simpl. unfold bind.
    rewrite (Htrue i) by lia. rewrite HB.
    rewrite (IH (i + 1)%Z fuel).
    + now rewrite perform_all_app.
    + lia.
    + intros j Hj. apply Htrue. lia.
    + replace (i + 1 + Z.of_nat n)%Z with (i + Z.of_nat (S n))%Z by lia.
      exact Hfalse.
Qed.

(** With too little fuel the loop does not return. *)
Lemma for_loop_out_of_fuel (test : Z -> M bool) (body : Z -> M unit)
      (B : Z -> list Canvas.call) :
  (forall j, emits (body j) this (B j)) ->
  forall (fuel : nat) (i : Z) (c : Canvas.t),
    (forall j, (i <= j < i + Z.of_nat fuel)%Z -> evaluates (test j) this true) ->
    for_loop fuel i test body {| plot := this; context := c |} = None.
Proof.
  intros HB. induction fuel as [| fuel IH]; intros i c Htrue.
  - reflexivity.
  - simpl. unfold bind. rewrite (Htrue i) by lia. rewrite HB.
    apply IH. intros j Hj. apply Htrue. lia.
Qed.

Lemma zseq_length (i : Z) (n : nat) : List.length (zseq i n) = n.
Proof. revert i. induction n; intros; simpl; auto. Qed.


End Emits.

(** ** The journal of drawShape *)

Section DrawShape.

Variable host : Host.
Variable this : Plot.

Lemma ofZ_compare (a b : Z) : (ofZ a ?= ofZ b)%Qc = (a ?= b)%Z.
Proof.
  unfold Qccompare, ofZ, Q2Qc; cbn [Qcanon.this].
  rewrite !Qred_correct. unfold Qcompare; simpl.
  now rewrite !Z.mul_1_r.
Qed.

Lemma leb_int (a b : Z) : leb (int a) (int b) = (a <=? b)%Z.
Proof.
  unfold leb, int. rewrite ofZ_compare. unfold Z.leb.
  now destruct (a ?= b)%Z.
Qed.

Lemma tick_test_x (j : Z) :
  evaluates (tick_test Vector2.x j) this (j <=? Qfloor (px (ticks this)))%Z.
Proof. intro c. rewrite <- leb_int. reflexivity. Qed.

Lemma tick_test_y (j : Z) :
  evaluates (tick_test Vector2.y j) this (j <=? Qfloor (py (ticks this)))%Z.
Proof. intro c. rewrite <- leb_int. reflexivity. Qed.

Lemma tick_count_inside (t : Qc) (j : Z) :
  (0 <= j < 0 + Z.of_nat (tick_count t))%Z -> (j <=? Qfloor t)%Z = true.
Proof. unfold tick_count. intros H. apply Z.leb_le. lia. Qed.

Lemma tick_count_outside (t : Qc) :
  ((0 + Z.of_nat (tick_count t))%Z <=? Qfloor t)%Z = false.
Proof. unfold tick_count. apply Z.leb_gt. lia. Qed.

Lemma xTick_emits (tl : Vector2.t) (i : Z) :
  emits (xTick host tl i) this (calls (xTick host tl i) this).
Proof. intro c. reflexivity. Qed.

Lemma yTick_emits (tl : Vector2.t) (i : Z) :
  emits (yTick host tl i) this (calls (yTick host tl i) this).
Proof. intro c. reflexivity. Qed.

Lemma drawAxes_emits : emits (drawAxes host) this (calls (drawAxes host) this).
Proof. intro c. reflexivity. Qed.

Lemma drawXAxisLabel_emits :
  emits (drawXAxisLabel host) this (calls (drawXAxisLabel host) this).
Proof. intro c. reflexivity. Qed.

Lemma drawYAxisLabel_emits :
  emits (drawYAxisLabel host) this (calls (drawYAxisLabel host) this).
Proof. intro c. reflexivity. Qed.

Lemma vertical_emits (fuel : nat) :
  (tick_count (px (ticks this)) < fuel)%nat ->
  emits (for_loop fuel 0 (tick_test Vector2.x)
                  (xTick host (insetTopLeft host this)))
        this (vertical_calls host this).
Proof.
  intros H. unfold vertical_calls.
  apply emits_for_loop with (B := xTick_calls host this); try assumption.
  - intros j. apply xTick_emits.
  - intros j Hj. rewrite <- (tick_count_inside _ Hj). apply tick_test_x.
  - rewrite <- (tick_count_outside (px (ticks this))). apply tick_test_x.
Qed.

Lemma horizontal_emits (fuel : nat) :
  (tick_count (py (ticks this)) < fuel)%nat ->
  emits (for_loop fuel 0 (tick_test Vector2.y)
                  (yTick host (insetTopLeft host this)))
        this (horizontal_calls host this).
Proof.
  intros H. unfold horizontal_calls.
  apply emits_for_loop with (B := yTick_calls host this); try assumption.
  - intros j. apply yTick_emits.
  - intros j Hj. rewrite <- (tick_count_inside _ Hj). apply tick_test_y.
  - rewrite <- (tick_count_outside (py (ticks this))). apply tick_test_y.
Qed.

(** With enough fuel [drawShape] returns, from any context, having made the
    calls [drawShape_calls] and left the component as it was. *)
Lemma drawShape_emits (fuel : nat) :
  enough_fuel this fuel ->
  emits (drawShape host fuel) this (drawShape_calls host this).
Proof.
  intros [Hx Hy]. unfold drawShape, drawShape_calls.
  apply emits_self. fold (insetTopLeft host this).
  apply emits_bind; [now apply vertical_emits |].
  apply emits_bind; [now apply horizontal_emits |].
  apply emits_bind; [apply drawAxes_emits |].
  apply emits_bind; [apply drawXAxisLabel_emits | apply drawYAxisLabel_emits].
Qed.

Lemma drawShape_journal (fuel : nat) :
  enough_fuel this fuel ->
  calls (drawShape host fuel) this = drawShape_calls host this.
Proof. intros H. now apply emits_calls, drawShape_emits. Qed.

(** Without enough fuel for the first loop [drawShape] does not return. *)
Lemma drawShape_out_of_fuel (fuel : nat) (c : Canvas.t) :
  (fuel <= tick_count (px (ticks this)))%nat ->
  drawShape host fuel {| plot := this; context := c |} = None.
Proof.
  intros H. unfold drawShape, bind at 1, self. cbn [plot].
  unfold bind at 1.
  rewrite for_loop_out_of_fuel with (B := xTick_calls host this).
  - reflexivity.
  - intros j. apply xTick_emits.
  - intros j Hj.
    rewrite <- (tick_count_inside (px (ticks this)) (j := j)) by lia.
    apply tick_test_x.
Qed.

End DrawShape.

(** ** Readings of a journal are list homomorphisms *)

Section Readings.

Lemma strokes_app (a b : list Canvas.call) :
  strokes (a ++ b) = (strokes a + strokes b)%nat.
Proof. unfold strokes. now rewrite filter_app, length_app. Qed.

Lemma texts_app (a b : list Canvas.call) :
  texts (a ++ b) = (texts a ++ texts b)%list.
Proof.
  induction a as [| k a IH]; [reflexivity |].
  destruct k; simpl; rewrite IH; reflexivity.
Qed.

Lemma moves_app (a b : list Canvas.call) :
  moves (a ++ b) = (moves a ++ moves b)%list.
Proof.
  induction a as [| k a IH]; [reflexivity |].
  destruct k; simpl; rewrite IH; reflexivity.
Qed.


Variable B : Z -> list Canvas.call.

Lemma strokes_flat_map (l : list Z) :
  (forall i, strokes (B i) = 1%nat) ->
  strokes (flat_map B l) = List.length l.
Proof.
  intros H. induction l as [| i l IH]; [reflexivity |].
  simpl. now rewrite strokes_app, H, IH.
Qed.

Lemma texts_flat_map (g : Z -> string) (l : list Z) :
  (forall i, texts (B i) = [g i]) ->
  texts (flat_map B l) = map g l.
Proof.
  intros H. induction l as [| i l IH]; [reflexivity |].
  simpl. now rewrite texts_app, H, IH.
Qed.

Lemma moves_flat_map (g : Z -> num * num) (l : list Z) :
  (forall i, moves (B i) = [g i]) ->
  moves (flat_map B l) = map g l.
Proof.
  intros H. induction l as [| i l IH]; [reflexivity |].
  simpl. now rewrite moves_app, H, IH.
Qed.


End Readings.



(** ** The tick loops *)


(** ** Frame: what drawShape leaves unchanged *)

Section Frame.

Variable host : Host.
Variable this : Plot.

Lemma balanced_app (a b : list Canvas.call) :
  balanced a -> balanced b -> balanced (a ++ b).
Proof.
  intros Ha Hb c. rewrite perform_all_app.
  destruct (Hb (Canvas.perform_all a c)) as [-> ->]. apply Ha.
Qed.

Lemma balanced_flat_map (B : Z -> list Canvas.call) (l : list Z) :
  (forall i, balanced (B i)) -> balanced (flat_map B l).
Proof.
  intros H. induction l as [| i l IH].
  - intro c. split; reflexivity.
  - simpl. apply balanced_app; [apply H | exact IH].
Qed.

Lemma xTick_balanced (i : Z) : balanced (xTick_calls host this i).
Proof. intro c. split; reflexivity. Qed.

Lemma yTick_balanced (i : Z) : balanced (yTick_calls host this i).
Proof. intro c. split; reflexivity. Qed.

Lemma drawAxes_balanced : balanced (calls (drawAxes host) this).
Proof. intro c. split; reflexivity. Qed.

Lemma drawXAxisLabel_balanced : balanced (calls (drawXAxisLabel host) this).
Proof. intro c. split; reflexivity. Qed.

(** The translation and the rotation of the y axis label sit between
    [save] and [restore]. *)
Lemma drawYAxisLabel_balanced : balanced (calls (drawYAxisLabel host) this).
Proof. intro c. split; reflexivity. Qed.

Lemma drawShape_balanced : balanced (drawShape_calls host this).
Proof.
  unfold drawShape_calls, vertical_calls, horizontal_calls.
  apply balanced_app; [apply balanced_flat_map, xTick_balanced |].
  apply balanced_app; [apply balanced_flat_map, yTick_balanced |].
  apply balanced_app; [apply drawAxes_balanced |].
  apply balanced_app;
    [apply drawXAxisLabel_balanced | apply drawYAxisLabel_balanced].
Qed.


Lemma drawShape_needs_fuel (fuel : nat) (c : Canvas.t) :
  ~ enough_fuel this fuel ->
  drawShape host fuel {| plot := this; context := c |} = None.
Proof.
  intros H.
  destruct (Nat.le_gt_cases fuel (tick_count (px (ticks this)))) as [Hx | Hx].
  - now apply drawShape_out_of_fuel.
  - assert (Hy : (fuel <= tick_count (py (ticks this)))%nat).
    { unfold enough_fuel in H. lia. }
    unfold drawShape, bind at 1, self. cbn [plot].
    unfold bind at 1. fold (insetTopLeft host this).
    rewrite (vertical_emits host this Hx). unfold bind at 1.
    rewrite for_loop_out_of_fuel with (B := yTick_calls host this).
    + reflexivity.
    + intros j. apply yTick_emits.
    + intros j Hj.
      rewrite <- (tick_count_inside (py (ticks this)) (j := j)) by lia.
      apply tick_test_y.
Qed.

End Frame.

(** C9.  A run of [drawShape] that has fuel for its loops returns, and every
    run that returns leaves the whole [Plot] state as it was, and the
    transform of the context and its stack of saved states as they were
    before the call. *)
Theorem drawShape_frame (host : Host) (this : Plot) (c : Canvas.t)
        (fuel : nat) :
  (enough_fuel this fuel ->
   exists w, drawShape host fuel {| plot := this; context := c |}
             = Some (tt, w))
  /\ (forall u w,
        drawShape host fuel {| plot := this; context := c |} = Some (u, w) ->
        plot w = this
        /\ Canvas.transform (Canvas.current (context w))
           = Canvas.transform (Canvas.current c)
        /\ Canvas.stack (context w) = Canvas.stack c).
Proof.
  split.
  - intros H. eexists. apply (@drawShape_emits host this fuel H).
  - intros u w Hrun.
    assert (H : enough_fuel this fuel).
    { unfold enough_fuel.
      destruct (Nat.le_gt_cases fuel (tick_count (px (ticks this))));
        destruct (Nat.le_gt_cases fuel (tick_count (py (ticks this))));
        try (split; assumption);
        rewrite drawShape_needs_fuel in Hrun
          by (unfold enough_fuel; lia); discriminate Hrun. }
    rewrite (@drawShape_emits host this fuel H) in Hrun.
    injection Hrun as _ <-. cbn [plot context].
    split; [reflexivity | apply drawShape_balanced].
Qed.

(** ** Determinism *)

Lemma same_properties_calls (host : Host) (a b : Plot) :
  same_properties a b -> drawShape_calls host a = drawShape_calls host b.
Proof.
  destruct a, b. unfold same_properties. cbn.
  intros H. decompose [and] H. subst. reflexivity.
Qed.

Lemma same_properties_point (host : Host) (a b : Plot) (p : Vector2.t) :
  same_properties a b ->
  getPointFromPlotSpace host a p = getPointFromPlotSpace host b p.
Proof.
  destruct a, b. unfold same_properties. cbn.
  intros H. decompose [and] H. subst. reflexivity.
Qed.

(** C10.  Two components with the same properties give the same pixel point
    for the same data point, and two runs of [drawShape] on them, from any
    two contexts and with any sufficient fuel, return having appended the
    same sequence of calls to the journal. *)
Theorem drawShape_deterministic (host : Host) (a b : Plot) (p : Vector2.t)
        (c1 c2 : Canvas.t) (fuel1 fuel2 : nat) :
  same_properties a b ->
  enough_fuel a fuel1 ->
  enough_fuel b fuel2 ->
  getPointFromPlotSpace host a p = getPointFromPlotSpace host b p
  /\ exists ks w1 w2,
      drawShape host fuel1 {| plot := a; context := c1 |} = Some (tt, w1)
      /\ drawShape host fuel2 {| plot := b; context := c2 |} = Some (tt, w2)
      /\ Canvas.journal (context w1) = (Canvas.journal c1 ++ ks)%list
      /\ Canvas.journal (context w2) = (Canvas.journal c2 ++ ks)%list.
Proof.
  intros Hsame H1 H2. split; [now apply same_properties_point |].
  exists (drawShape_calls host a). do 2 eexists.
  split; [apply (@drawShape_emits host a fuel1 H1) |].
  split; [apply (@drawShape_emits host b fuel2 H2) |].
  cbn [context]. rewrite !journal_perform_all.
  rewrite (same_properties_calls host Hsame). split; reflexivity.
Qed.

(** ** Gridlines and the coordinate mapping *)

Section Gridlines.

Variable host : Host.
Variable this : Plot.

Local Open Scope Qc_scope.

(** The start point of the vertical gridline of index [i]. *)
Lemma moves_xTick (i : Z) :
  moves (xTick_calls host this i)
  = [ ((Vector2.x (insetTopLeft host this)
        + Vector2.x (gridSize host this) * (int i / Fin (px (ticks this))))%num,
       (Vector2.y (insetTopLeft host this)
        + Vector2.y (gridSize host this) * int 1
        + Fin (px (tickOverflow this))
        + Fin (px (axisStrokeWidth this)) / int 2
        + Fin (px (axisStrokeWidth this)) / int 2)%num) ].
Proof. reflexivity. Qed.

(** The start point of the horizontal gridline of index [i]. *)
Lemma moves_yTick (i : Z) :
  moves (yTick_calls host this i)
  = [ ((Vector2.x (insetTopLeft host this)
        + Vector2.x (gridSize host this) * int 1)%num,
       (Vector2.y (insetTopLeft host this)
        + Vector2.y (gridSize host this)
          * (int 1 - int i / Fin (py (ticks this))))%num) ].
Proof. reflexivity. Qed.








End Gridlines.

(** ** The domain of the logarithm *)

Section LogDomain.

Variable host : Host.
Variable this : Plot.

Local Open Scope Qc_scope.

Hypothesis max_y_nonpos : py (max this) <= 0.






Lemma xs_xTick (i : Z) :
  map fst (positions (xTick_calls host this i))
  = let X := (Vector2.x (insetTopLeft host this)
              + Vector2.x (gridSize host this)
                * (int i / Fin (px (ticks this))))%num in
    [X; X; X].
Proof. reflexivity. Qed.






End LogDomain.



(** ** The constructor *)

(** C8.  Constructing a [Plot] without props throws; with a props object
    that omits the two formatters, construction returns (once the base
    class constructor has) a component whose formatters are
    [x => x.toFixed(0)] and [y => y.toFixed(0)]. *)
Theorem constructor_props (host : Host) (props : PlotProps) (super : Rect) :
  (exists e, constructor host None = Throw e)
  /\ (p_xLabelFormatter props = None ->
      p_yLabelFormatter props = None ->
      Rect_new host (Some props) = Ok super ->
      exists this,
        constructor host (Some props) = Ok this
        /\ rect this = super
        /\ xLabelFormatter this = (fun x => Number_toFixed host x 0)
        /\ yLabelFormatter this = (fun y => Number_toFixed host y 0)).
Proof.
  split.
  - unfold constructor. destruct (Rect_new host None); eexists; reflexivity.
  - intros Hx Hy Hsuper. exists (initialized host super props).
    unfold constructor. rewrite Hsuper.
    unfold initialized; cbn [rect xLabelFormatter yLabelFormatter].
    rewrite Hx, Hy. repeat split.
Qed.

(** ** Concrete runs *)

Section Concrete.

Import Sample.

Local Open Scope Qc_scope.

Lemma enough_fuel_plot0 : enough_fuel plot0 12.
Proof. split; vm_compute; lia. Defined.


Example plot0_edgePadding : edgePadding host plot0 = vec (pt 77 67).
Proof.
  unfold edgePadding. unfold_vec. f_equal; num_eq.
Qed.

Example plot0_origin :
  getPointFromPlotSpace host plot0 (pt 0 0) = vec (pt (-123) 83).
Proof.
  unfold getPointFromPlotSpace, toRelativeGridSize. unfold_vec.
  f_equal; num_eq.
Qed.

Example plot0_texts :
  texts (calls (drawShape host 12) plot0)
  = ["0"; "10"; "20"; "30"; "40"; "50"; "60"; "70"; "80"; "90"; "100";
     "0"; "10"; "20"; "30"; "40"; "50"; "60"; "70"; "80"; "90"; "100";
     ""; ""]%string.
Proof. vm_compute. reflexivity. Qed.

Example plot0_out_of_fuel :
  drawShape host 11 {| plot := plot0; context := Canvas.blank |} = None.
Proof. vm_compute. reflexivity. Qed.


(** It also fails with [max.y = 0], where the inset corner is at minus
    infinity. *)
Lemma getPointFromPlotSpace_log_of_zero :
  py (max nonpos_y) = 0
  /\ getPointFromPlotSpace host nonpos_y (min nonpos_y)
     <> insetBottomLeft host nonpos_y.
Proof.
  split; [qc_eq |].
  intros H. apply (f_equal Vector2.x) in H. vm_compute in H. discriminate H.
Qed.



(** Nor does it hold when the cardinal points are not axis-aligned. *)
Lemma gridline_skewed :
  px (min skewed) <> px (max skewed)
  /\ (Vector2.x (insetTopLeft host skewed)
      + Vector2.x (gridSize host skewed)
        * (int 0 / Fin (px (ticks skewed))))%num
     <> Vector2.x
          (getPointFromPlotSpace host skewed
             [mapToX skewed (int 0 / Fin (px (ticks skewed)))%num, int 0]%vec).
Proof.
  split; [qc_neq |].
  intros H. apply (f_equal (fun a => eqb a (int (-123)))) in H.
  vm_compute in H. discriminate H.
Qed.







Lemma constructor_props_witness :
  p_xLabelFormatter no_props = None
  /\ p_yLabelFormatter no_props = None
  /\ Rect_new host (Some no_props) = Ok rect0
  /\ exists this,
      constructor host (Some no_props) = Ok this
      /\ rect this = rect0
      /\ xLabelFormatter this = (fun x => Number_toFixed host x 0)
      /\ yLabelFormatter this = (fun y => Number_toFixed host y 0).
Proof.
  split; [reflexivity | split; [reflexivity | split; [reflexivity |]]].
  destruct (constructor_props host no_props rect0) as [_ H].
  apply H; reflexivity.
Defined.

Lemma drawShape_frame_witness :
  enough_fuel plot0 12
  /\ exists w,
      drawShape host 12 {| plot := plot0; context := Canvas.blank |}
      = Some (tt, w)
      /\ plot w = plot0
      /\ Canvas.transform (Canvas.current (context w))
         = Canvas.transform (Canvas.current Canvas.blank)
      /\ Canvas.stack (context w) = Canvas.stack Canvas.blank.
Proof.
  split; [exact enough_fuel_plot0 |].
  destruct (drawShape_frame host plot0 Canvas.blank 12) as [H1 H2].
  destruct (H1 enough_fuel_plot0) as [w Hw].
  exists w. split; [exact Hw | exact (H2 tt w Hw)].
Defined.

Lemma drawShape_deterministic_witness :
  same_properties plot0 (with_progress plot0 (pt 1 1))
  /\ enough_fuel plot0 12
  /\ enough_fuel (with_progress plot0 (pt 1 1)) 20
  /\ getPointFromPlotSpace host plot0 (pt 50 50)
     = getPointFromPlotSpace host (with_progress plot0 (pt 1 1)) (pt 50 50)
  /\ exists ks w1 w2,
      drawShape host 12 {| plot := plot0; context := Canvas.blank |}
      = Some (tt, w1)
      /\ drawShape host 20
           {| plot := with_progress plot0 (pt 1 1);
              context := Canvas.perform Canvas.Save Canvas.blank |}
         = Some (tt, w2)
      /\ Canvas.journal (context w1)
         = (Canvas.journal Canvas.blank ++ ks)%list
      /\ Canvas.journal (context w2)
         = (Canvas.journal (Canvas.perform Canvas.Save Canvas.blank)
            ++ ks)%list.
Proof.
  assert (Hs : same_properties plot0 (with_progress plot0 (pt 1 1)))
    by (repeat split).
  assert (H2 : enough_fuel (with_progress plot0 (pt 1 1)) 20)
    by (split; vm_compute; lia).
  split; [exact Hs |]. split; [exact enough_fuel_plot0 |].
  split; [exact H2 |].
  exact (@drawShape_deterministic host plot0 (with_progress plot0 (pt 1 1))
           (pt 50 50) Canvas.blank (Canvas.perform Canvas.Save Canvas.blank)
           12 20 Hs enough_fuel_plot0 H2).
Defined.

End Concrete.

(** * Further properties *)

(** ** Order on rationals, through [Q] *)

Section QcOrder.

Local Open Scope Qc_scope.











Lemma Qfloor_neg (t : Qc) : t < 0 -> (Qfloor t < 0)%Z.
Proof.
  intros H. rewrite Zlt_Qlt. apply Qle_lt_trans with (this t).
  - apply Qfloor_le.
  - exact H.
Qed.










Lemma leb_le (p q : Qc) : leb (Fin p) (Fin q) = true <-> p <= q.
Proof.
  unfold leb. rewrite Qcle_alt. destruct (p ?= q); split; congruence.
Qed.


End QcOrder.

(** ** The coordinate mapping, continued *)

Section MappingMore.

Variable host : Host.
Variable this : Plot.

Local Open Scope Qc_scope.




End MappingMore.

Section MappingOrder.

Variable host : Host.
Variable this : Plot.

Local Open Scope Qc_scope.




End MappingOrder.

(** ** The tick loops, continued *)

Section TicksMore.

Variable host : Host.
Variable this : Plot.

Local Open Scope Qc_scope.

Lemma tick_count_neg (t : Qc) : t < 0 -> tick_count t = 0%nat.
Proof. intros H. apply Qfloor_neg in H. unfold tick_count. lia. Qed.

(** X6.  A negative tick count draws no gridline and no tick label on its
    axis; with both counts negative [drawShape] returns with any non-zero
    fuel after drawing only the axes and the two axis labels. *)
Theorem negative_ticks_draw_nothing (fuel : nat) :
  (px (ticks this) < 0 -> vertical_calls host this = [])
  /\ (py (ticks this) < 0 -> horizontal_calls host this = [])
  /\ (px (ticks this) < 0 -> py (ticks this) < 0 -> (0 < fuel)%nat ->
      emits (drawShape host fuel) this (closing_calls host this)).
Proof.
  split; [| split].
  - intros H. unfold vertical_calls. now rewrite (@tick_count_neg _ H).
  - intros H. unfold horizontal_calls. now rewrite (@tick_count_neg _ H).
  - intros Hx Hy Hfuel.
    assert (E : drawShape_calls host this = closing_calls host this).
    { unfold drawShape_calls, vertical_calls, horizontal_calls.
      now rewrite (@tick_count_neg _ Hx), (@tick_count_neg _ Hy). }
    rewrite <- E. apply drawShape_emits.
    unfold enough_fuel. now rewrite (@tick_count_neg _ Hx), (@tick_count_neg _ Hy).
Qed.

(** X7.  With [ticks.x = 0] the first loop runs once: [0/0] is [NaN], so
    the one gridline and its label are placed at x [NaN] and the label is
    the formatter applied to [NaN]. *)
Theorem zero_ticks_single_nan_gridline :
  px (ticks this) = 0 ->
  vertical_calls host this = xTick_calls host this 0
  /\ texts (vertical_calls host this) = [xLabelFormatter this NaN]
  /\ map fst (positions (vertical_calls host this)) = [NaN; NaN; NaN].
Proof.
  intros H.
  assert (E : vertical_calls host this = xTick_calls host this 0).
  { unfold vertical_calls. rewrite H. cbn. apply app_nil_r. }
  rewrite E. split; [reflexivity |].
  assert (N : (int 0 / Fin (px (ticks this)))%num = NaN) by now rewrite H.
  split.
  - change (texts (xTick_calls host this 0))
      with [xLabelFormatter this
              (mapToX this (int 0 / Fin (px (ticks this)))%num)].
    rewrite N. unfold mapToX. unfold_vec. now rewrite sub_fin.
  - rewrite xs_xTick. cbv zeta. rewrite N.
    destruct (Vector2.x (insetTopLeft host this)),
      (Vector2.x (gridSize host this)); reflexivity.
Qed.

End TicksMore.

Section GridlinesMore.

Variable host : Host.
Variable this : Plot.

Local Open Scope Qc_scope.








End GridlinesMore.

Section TickValues.

Variable host : Host.
Variable this : Plot.

Local Open Scope Qc_scope.





End TickValues.

(** ** The context after drawShape *)

Section StylesAfter.

Variable host : Host.
Variable this : Plot.


Lemma tick_loops_balanced :
  balanced (vertical_calls host this ++ horizontal_calls host this).
Proof.
  apply balanced_app; apply balanced_flat_map.
  - apply xTick_balanced.
  - apply yTick_balanced.
Qed.


End StylesAfter.

(** ** The axis lines *)

Section Axes.

Variable host : Host.
Variable this : Plot.

Local Open Scope Qc_scope.




End Axes.

(** ** The constructor, continued *)

(** X13.  The constructor throws only when the props are absent or the base
    class constructor throws; when it returns, the props were present, the
    inherited part is what the base class constructor returned, and a
    formatter given in the props is installed as it is, each axis on its
    own. *)
Theorem constructor_outcome (host : Host) (props : option PlotProps) :
  match constructor host props with
  | Throw e => props = None \/ Rect_new host props = Throw e
  | Ok this =>
      exists given,
        props = Some given
        /\ Rect_new host props = Ok (rect this)
        /\ (forall f, p_xLabelFormatter given = Some f ->
                      xLabelFormatter this = f)
        /\ (forall g, p_yLabelFormatter given = Some g ->
                      yLabelFormatter this = g)
        /\ (p_xLabelFormatter given = None ->
            xLabelFormatter this = fun x => Number_toFixed host x 0)
        /\ (p_yLabelFormatter given = None ->
            yLabelFormatter this = fun y => Number_toFixed host y 0)
  end.
Proof.
  unfold constructor.
  destruct (Rect_new host props) as [super | e] eqn:E; [| now right].
  destruct props as [given |]; [| now left].
  exists given. unfold initialized; cbn [rect xLabelFormatter yLabelFormatter].
  split; [reflexivity |]. split; [reflexivity |].
  repeat split.
  - intros f Hf. now rewrite Hf.
  - intros g Hg. now rewrite Hg.
  - intros Hf. now rewrite Hf.
  - intros Hg. now rewrite Hg.
Qed.

(** ** Styles and coordinates *)

Section Coordinates.

Variable host : Host.

Lemma coordinates_app (a b : list Canvas.call) :
  coordinates (a ++ b) = (coordinates a ++ coordinates b)%list.
Proof.
  induction a as [| k a IH]; [reflexivity |].
  destruct k; simpl; rewrite IH; reflexivity.
Qed.

Lemma coordinates_flat_map (B B' : Z -> list Canvas.call) (l : list Z) :
  (forall i, coordinates (B i) = coordinates (B' i)) ->
  coordinates (flat_map B l) = coordinates (flat_map B' l).
Proof.
  intros H. induction l as [| i l IH]; [reflexivity |].
  simpl. now rewrite !coordinates_app, H, IH.
Qed.

Lemma same_geometry_coordinates (a b : Plot) :
  same_geometry a b ->
  coordinates (drawShape_calls host a) = coordinates (drawShape_calls host b).
Proof.
  destruct a as [[] ], b as [[] ]. unfold same_geometry. cbn.
  intros H. decompose [and] H. subst.
  unfold drawShape_calls, vertical_calls, horizontal_calls.
  rewrite !coordinates_app. cbn [ticks].
  f_equal; [| f_equal].
  - apply coordinates_flat_map. reflexivity.
  - apply coordinates_flat_map. reflexivity.
Qed.

(** X14.  Colours, label texts, formatters and the font family never move
    anything: two components that agree on sizes, positions, range and tick
    counts hand the same points and offsets to the context, in the same
    order. *)
Theorem coordinates_ignore_style (a b : Plot) (fuel : nat) :
  same_geometry a b ->
  enough_fuel a fuel ->
  emits (drawShape host fuel) a (drawShape_calls host a)
  /\ emits (drawShape host fuel) b (drawShape_calls host b)
  /\ coordinates (calls (drawShape host fuel) a)
     = coordinates (calls (drawShape host fuel) b).
Proof.
  intros Hsame Ha.
  assert (Hb : enough_fuel b fuel).
  { destruct Hsame as (_ & _ & _ & _ & _ & _ & _ & _ & E & _).
    unfold enough_fuel in *. now rewrite <- E. }
  split; [now apply drawShape_emits |]. split; [now apply drawShape_emits |].
  rewrite !drawShape_journal by assumption.
  now apply same_geometry_coordinates.
Qed.

(** X15.  One run of [drawShape] strokes one path per tick and one per
    axis, each started by a single [moveTo], and writes one text per tick
    and one per axis label, whatever the tick counts are (a negative count
    contributes nothing). *)
Theorem drawShape_totals (this : Plot) (fuel : nat) :
  enough_fuel this fuel ->
  let n := (tick_count (px (ticks this)) + tick_count (py (ticks this)) + 2)%nat in
  strokes (calls (drawShape host fuel) this) = n
  /\ List.length (moves (calls (drawShape host fuel) this)) = n
  /\ List.length (texts (calls (drawShape host fuel) this)) = n.
Proof.
  intros Hfuel. cbv zeta. rewrite (@drawShape_journal host this fuel Hfuel).
  unfold drawShape_calls, vertical_calls, horizontal_calls.
  rewrite !strokes_app, !moves_app, !texts_app, !length_app.
  rewrite !strokes_flat_map by reflexivity.
  rewrite (moves_flat_map _ _ _ (moves_xTick host this)).
  rewrite (moves_flat_map _ _ _ (moves_yTick host this)).
  rewrite texts_flat_map
    with (g := fun i => xLabelFormatter this
                          (mapToX this (int i / Fin (px (ticks this)))%num))
    by reflexivity.
  rewrite texts_flat_map
    with (g := fun i => yLabelFormatter this
                          (mapToY this (int i / Fin (py (ticks this)))%num))
    by reflexivity.
  rewrite !length_map, !zseq_length.
  repeat split; cbn; lia.
Qed.

End Coordinates.

Section LabelTransform.

Variable host : Host.
Variable this : Plot.

(** X17.  The y axis label is the last text [drawShape] writes, at the
    origin of a frame that is the frame of the caller translated to the
    label position and then rotated by [-Math.PI / 2]; the state saved just
    before is the only one added to the stack at that moment, and
    [restore], the last call, pops it. *)
Theorem y_axis_label_rotated (fuel : nat) (c : Canvas.t) :
  enough_fuel this fuel ->
  exists before,
    calls (drawShape host fuel) this
    = (before ++ [Canvas.FillText (yAxisLabel this) (int 0) (int 0);
                  Canvas.Restore])%list
    /\ Canvas.transform (Canvas.current (Canvas.perform_all before c))
       = (Canvas.transform (Canvas.current c)
          ++ [Canvas.XTranslate
                (Fin (px (left this)) + Fin (py (labelPadding this)) / int 2
                 + Fin (py (labelSize this)))%num
                (Fin (py (left this))
                 - Vector2.y (edgePadding host this) / int 2)%num;
              Canvas.XRotate (neg (Fin Math_PI) / int 2)%num])%list
    /\ Canvas.stack (Canvas.perform_all before c)
       = final_drawing host this (Canvas.transform (Canvas.current c))
         :: Canvas.stack c.
Proof.
  intros Hfuel.
  exists ((vertical_calls host this ++ horizontal_calls host this)
          ++ calls (drawAxes host) this
          ++ calls (drawXAxisLabel host) this
          ++ firstn 6 (calls (drawYAxisLabel host) this))%list.
  split; [| split].
  - rewrite (@drawShape_journal host this fuel Hfuel). unfold drawShape_calls.
    rewrite <- !app_assoc. do 4 f_equal.
  - rewrite perform_all_app.
    destruct (tick_loops_balanced host this c) as [Ht Hs].
    rewrite <- Ht. symmetry.
    etransitivity; [apply (app_assoc _ [_] [_]) | reflexivity].
  - rewrite perform_all_app.
    destruct (tick_loops_balanced host this c) as [Ht Hs].
    rewrite <- Ht, <- Hs. reflexivity.
Qed.

End LabelTransform.

(** ** Fonts *)

Section Fonts.

Variable host : Host.

Lemma fonts_app (a b : list Canvas.call) :
  fonts (a ++ b) = (fonts a ++ fonts b)%list.
Proof.
  induction a as [| k a IH]; [reflexivity |].
  destruct k; simpl; rewrite IH; reflexivity.
Qed.

Lemma fonts_flat_map (B : Z -> list Canvas.call) (f : string) (l : list Z) :
  (forall i, fonts (B i) = [f]) ->
  fonts (flat_map B l) = map (fun _ => f) l.
Proof.
  intros H. induction l as [| i l IH]; [reflexivity |].
  simpl. now rewrite fonts_app, H, IH.
Qed.

(** X16.  The x tick labels are always set in [sans-serif]: the font family
    of the node changes no call of the first loop, while the y tick labels
    are set in the font family of the node. *)
Theorem x_tick_labels_ignore_fontFamily (a b : Plot) :
  same_but_font a b ->
  vertical_calls host a = vertical_calls host b
  /\ fonts (vertical_calls host a)
     = map (fun _ => (Number_toString host (Fin (py (tickLabelSize a)))
                      ++ "px sans-serif")%string)
           (zseq 0 (tick_count (px (ticks a))))
  /\ fonts (horizontal_calls host a)
     = map (fun _ => (Number_toString host (Fin (py (tickLabelSize a)))
                      ++ "px " ++ fontFamily a)%string)
           (zseq 0 (tick_count (py (ticks a)))).
Proof.
  intros H. split; [| split].
  - destruct a as [[] ], b as [[] ].
    unfold same_but_font, same_geometry in H. cbn in H.
    decompose [and] H. subst. reflexivity.
  - unfold vertical_calls. apply fonts_flat_map. reflexivity.
  - unfold horizontal_calls. apply fonts_flat_map. reflexivity.
Qed.

End Fonts.

(** ** Concrete runs, continued *)

Section ConcreteMore.

Import Sample Cases.

Local Open Scope Qc_scope.








Lemma negative_ticks_draw_nothing_witness :
  px (ticks negative_ticks) < 0
  /\ py (ticks negative_ticks) < 0
  /\ vertical_calls host negative_ticks = []
  /\ horizontal_calls host negative_ticks = []
  /\ emits (drawShape host 1) negative_ticks
           (closing_calls host negative_ticks).
Proof.
  assert (Hx : px (ticks negative_ticks) < 0) by qc_lt.
  assert (Hy : py (ticks negative_ticks) < 0) by qc_lt.
  destruct (@negative_ticks_draw_nothing host negative_ticks 1)
    as (A & B & C).
  split; [exact Hx | split; [exact Hy |]].
  split; [exact (A Hx) | split; [exact (B Hy) |]].
  apply (C Hx Hy). lia.
Defined.

Lemma zero_ticks_single_nan_gridline_witness :
  px (ticks zero_ticks) = 0
  /\ texts (vertical_calls host zero_ticks) = [xLabelFormatter zero_ticks NaN]
  /\ map fst (positions (vertical_calls host zero_ticks)) = [NaN; NaN; NaN].
Proof.
  assert (H : px (ticks zero_ticks) = 0) by qc_eq.
  split; [exact H |].
  destruct (@zero_ticks_single_nan_gridline host zero_ticks H) as (_ & A & B).
  split; [exact A | exact B].
Defined.

Example zero_ticks_label :
  texts (vertical_calls host zero_ticks) = ["NaN"%string].
Proof. vm_compute. reflexivity. Qed.






Lemma constructor_outcome_witness :
  exists this,
    constructor host
      (Some (formatted (Some (fun _ => "tick"%string)) None))
    = Ok this
    /\ xLabelFormatter this = (fun _ => "tick"%string)
    /\ yLabelFormatter this = (fun y => Number_toFixed host y 0).
Proof.
  pose proof (@constructor_outcome host
                (Some (formatted (Some (fun _ => "tick"%string)) None)))
    as H.
  destruct (constructor host
              (Some (formatted (Some (fun _ => "tick"%string)) None)))
    as [this | e] eqn:E.
  - destruct H as (given & Hg & _ & Fx & _ & _ & Fy).
    injection Hg as <-. exists this.
    split; [reflexivity |].
    split; [apply Fx; reflexivity | apply Fy; reflexivity].
  - discriminate E.
Defined.

Lemma same_geometry_restyled : same_geometry plot0 restyled.
Proof. repeat split. Defined.

Lemma coordinates_ignore_style_witness :
  same_geometry plot0 restyled
  /\ enough_fuel plot0 12
  /\ coordinates (calls (drawShape host 12) plot0)
     = coordinates (calls (drawShape host 12) restyled).
Proof.
  split; [exact same_geometry_restyled | split; [exact enough_fuel_plot0 |]].
  destruct (@coordinates_ignore_style host plot0 restyled 12
              same_geometry_restyled enough_fuel_plot0) as (_ & _ & H).
  exact H.
Defined.

Lemma drawShape_totals_witness :
  enough_fuel plot0 12
  /\ strokes (calls (drawShape host 12) plot0)
     = (tick_count (px (ticks plot0)) + tick_count (py (ticks plot0)) + 2)%nat.
Proof.
  split; [exact enough_fuel_plot0 |].
  destruct (@drawShape_totals host plot0 12 enough_fuel_plot0) as [H _].
  exact H.
Defined.

Lemma x_tick_labels_ignore_fontFamily_witness :
  same_but_font plot0
    (initialized host
       {| size := size plot0; topLeft := topLeft plot0;
          topRight := topRight plot0; bottomLeft := bottomLeft plot0;
          bottom := bottom plot0; left := left plot0;
          fontFamily := "Fira Code" |} no_props)
  /\ vertical_calls host plot0
     = vertical_calls host
         (initialized host
            {| size := size plot0; topLeft := topLeft plot0;
               topRight := topRight plot0; bottomLeft := bottomLeft plot0;
               bottom := bottom plot0; left := left plot0;
               fontFamily := "Fira Code" |} no_props).
Proof.
  assert (H : same_but_font plot0
                (initialized host
                   {| size := size plot0; topLeft := topLeft plot0;
                      topRight := topRight plot0;
                      bottomLeft := bottomLeft plot0;
                      bottom := bottom plot0; left := left plot0;
                      fontFamily := "Fira Code" |} no_props))
    by (repeat split).
  split; [exact H |].
  destruct (@x_tick_labels_ignore_fontFamily host plot0 _ H) as [A _].
  exact A.
Defined.

Lemma y_axis_label_rotated_witness :
  enough_fuel plot0 12
  /\ exists before,
      calls (drawShape host 12) plot0
      = (before ++ [Canvas.FillText (yAxisLabel plot0) (int 0) (int 0);
                    Canvas.Restore])%list
      /\ Canvas.stack (Canvas.perform_all before Canvas.blank)
         = final_drawing host plot0
             (Canvas.transform (Canvas.current Canvas.blank))
           :: Canvas.stack Canvas.blank.
Proof.
  split; [exact enough_fuel_plot0 |].
  destruct (@y_axis_label_rotated host plot0 12 Canvas.blank
              enough_fuel_plot0) as (before & A & _ & C).
  exists before. split; [exact A | exact C].
Defined.

End ConcreteMore.
